(** * SmartFlow AI: the five-year multi-stage production simulator (src/app.py)

    A shallow embedding of the yearly transition of [src/app.py].  Python
    floats are modelled as exact rationals [Q]; Python ints as [Z].  The
    Streamlit session state becomes the record [State]; one press of
    "Simulate This Year" is the function [advance], the random draws of
    [np.random.uniform] are passed in explicitly as [Draws], and the numeric
    widgets give the [Decision]. *)

From Stdlib Require Import QArith Qround Qminmax ZArith List Lia Lqa String.
Import ListNotations.
Open Scope Q_scope.

(** ** Python built-ins *)

(** [min(a, b)]: Python keeps the first argument unless the second is
    strictly smaller. *)
Definition py_min (a b : Q) : Q := if Qlt_le_dec b a then b else a.

(** [max(a, b)]: Python keeps the first argument unless the second is
    strictly larger. *)
Definition py_max (a b : Q) : Q := if Qlt_le_dec a b then b else a.

(** [round(x)]: round half to even, to an int. *)
Definition py_round (x : Q) : Z :=
  let f := Qfloor x in
  let r := x - inject_Z f in
  if Qlt_le_dec r (1#2) then f
  else if Qlt_le_dec (1#2) r then (f + 1)%Z
  else if Z.even f then f else (f + 1)%Z.

(** [round(x, 2)]: round half to even at two decimals. *)
Definition py_round2 (x : Q) : Q := inject_Z (py_round (x * 100)) / 100.

(** ** Fixed parameters (lines 22-38) *)

Definition BASE_MONTHLY_DEMAND : Q := 10000.
Definition BREAKDOWN_PROB : Q := 8 # 100.
Definition AVAILABLE_HOURS_MONTH : Q := 160.
Definition UNITS_PER_MACHINE_PER_HOUR : Q := 7.

Definition BODY_FACTOR : Q := 5.
Definition PAINT_FACTOR : Q := 7.
Definition ENGINE_FACTOR : Q := 3.
Definition FINAL_FACTOR : Q := 4.

Definition MACHINE_COST_PER_HOUR : Q := 400.
Definition LABOR_COST_PER_HOUR : Q := 50.
Definition SETUP_COST_PER_MACHINE : Q := 100000.
Definition HOLDING_COST_PER_UNIT : Q := 50.
Definition SHORTAGE_COST_PER_UNIT : Q := 200.
Definition WIP_HOLDING_COST_PER_UNIT : Q := 30.

(** ** Session state (lines 44-58) *)

(** One row of [st.session_state.results] (lines 181-199). *)
Record YearRecord := {
  r_year : Z;
  r_demand : Z;
  r_production : Z;
  r_units_sold : Z;
  r_fg_inventory : Z;
  r_wip_body : Z;
  r_wip_paint : Z;
  r_wip_engine : Z;
  r_machine_cost : Z;
  r_setup_cost : Z;
  r_labor_cost : Z;
  r_holding_cost_fg : Z;
  r_holding_cost_wip : Z;
  r_shortage_cost : Z;
  r_inflation_pct : Q;
  r_total_cost : Z;
  r_cost_per_unit : Q
}.

Record State := {
  year : Z;
  monthly_demand : Q;
  fg_inventory : Q;
  wip_body : Q;
  wip_paint : Q;
  wip_engine : Q;
  results : list YearRecord;
  total_cost : Q;
  total_units : Q
}.

Definition defaults : State := {|
  year := 1%Z;
  monthly_demand := BASE_MONTHLY_DEMAND;
  fg_inventory := 0;
  wip_body := 0;
  wip_paint := 0;
  wip_engine := 0;
  results := [];
  total_cost := 0;
  total_units := 0
|}.

(** ** The year's decision (lines 73-80) and random draws (lines 106, 110) *)

Record Decision := {
  machines_body : Z;
  machines_paint : Z;
  machines_engine : Z;
  machines_final : Z;
  overtime : Z;
  maintenance_eff : Q
}.

(** The ranges the widgets admit: [number_input(.., 1, 20, ..)],
    [number_input(.., 0, 200, ..)] and [slider(.., 0.0, 1.0, ..)]. *)
Definition decision_ok (d : Decision) : Prop :=
  (1 <= machines_body d <= 20)%Z /\ (1 <= machines_paint d <= 20)%Z /\
  (1 <= machines_engine d <= 20)%Z /\ (1 <= machines_final d <= 20)%Z /\
  (0 <= overtime d <= 200)%Z /\ 0 <= maintenance_eff d <= 1.

Record Draws := {
  demand_growth : Q;   (* np.random.uniform(-0.10, 0.25) *)
  inflation : Q        (* np.random.uniform(0.06, 0.12) *)
}.

Definition draws_ok (r : Draws) : Prop :=
  -(10#100) <= demand_growth r <= 25#100 /\ 6#100 <= inflation r <= 12#100.

(** ** Cost preview (lines 82-91) *)

Definition yearly_hours : Q := AVAILABLE_HOURS_MONTH * 12.

Definition total_machines (d : Decision) : Z :=
  (machines_body d + machines_paint d + machines_engine d + machines_final d)%Z.

Definition machine_cost_preview (d : Decision) : Q :=
  MACHINE_COST_PER_HOUR * inject_Z (total_machines d) * yearly_hours.

Definition setup_cost_preview (d : Decision) : Q :=
  SETUP_COST_PER_MACHINE * inject_Z (total_machines d).

Definition labor_cost_preview (d : Decision) : Q :=
  LABOR_COST_PER_HOUR * inject_Z (overtime d) * 12.

(** ** Capacity model (lines 112-119) *)

Definition base_capacity (d : Decision) : Q :=
  let effective_breakdown := BREAKDOWN_PROB * (1 - maintenance_eff d) in
  yearly_hours * UNITS_PER_MACHINE_PER_HOUR * (1 - effective_breakdown).

Definition cap_body (d : Decision) : Q :=
  inject_Z (machines_body d) * base_capacity d * BODY_FACTOR.
Definition cap_paint (d : Decision) : Q :=
  inject_Z (machines_paint d) * base_capacity d * PAINT_FACTOR.
Definition cap_engine (d : Decision) : Q :=
  inject_Z (machines_engine d) * base_capacity d * ENGINE_FACTOR.
Definition cap_final (d : Decision) : Q :=
  inject_Z (machines_final d) * base_capacity d * FINAL_FACTOR.

(** ** Stage flow with WIP (lines 125-143) *)

Record Flow := {
  body_output : Q;
  wip_body' : Q;
  paint_input : Q;
  paint_output : Q;
  wip_paint' : Q;
  engine_input : Q;
  engine_output : Q;
  wip_engine' : Q;
  final_input : Q;
  final_output : Q
}.

Definition stage_flow (cb cp ce cf wb wp we : Q) : Flow :=
  let body_output := py_min cb (cb + wb) in
  let wb' := py_max (wb + cb - body_output) 0 in
  let paint_input := body_output + wp in
  let paint_output := py_min cp paint_input in
  let wp' := py_max (paint_input - paint_output) 0 in
  let engine_input := paint_output + we in
  let engine_output := py_min ce engine_input in
  let we' := py_max (engine_input - engine_output) 0 in
  let final_input := engine_output in
  let final_output := py_min cf final_input in
  {| body_output := body_output; wip_body' := wb';
     paint_input := paint_input; paint_output := paint_output; wip_paint' := wp';
     engine_input := engine_input; engine_output := engine_output;
     wip_engine' := we';
     final_input := final_input; final_output := final_output |}.

Definition flow_of (st : State) (d : Decision) : Flow :=
  stage_flow (cap_body d) (cap_paint d) (cap_engine d) (cap_final d)
             (wip_body st) (wip_paint st) (wip_engine st).

(** ** Finished goods inventory (lines 149-152) *)

Record Sales := {
  available_units : Q;
  units_sold : Q;
  ending_inventory : Q;
  shortage : Q
}.

Definition resolve (production opening yearly_demand : Q) : Sales :=
  let available_units := production + opening in
  {| available_units := available_units;
     units_sold := py_min yearly_demand available_units;
     ending_inventory := py_max (available_units - yearly_demand) 0;
     shortage := py_max (yearly_demand - available_units) 0 |}.

(** ** Costs (lines 160-178) *)

Record Costs := {
  machine_cost : Q;
  setup_cost : Q;
  labor_cost : Q;
  holding_cost_fg : Q;
  holding_cost_wip : Q;
  shortage_cost : Q;
  year_total_cost : Q;
  cost_per_unit : Q
}.

Definition costs (d : Decision) (inflation : Q) (s : Sales) (wb wp we : Q) : Costs :=
  let holding_cost_fg := ending_inventory s * HOLDING_COST_PER_UNIT in
  let holding_cost_wip := (wb + wp + we) * WIP_HOLDING_COST_PER_UNIT in
  let shortage_cost := shortage s * SHORTAGE_COST_PER_UNIT in
  let total_cost :=
    (machine_cost_preview d + setup_cost_preview d + labor_cost_preview d +
     holding_cost_fg + holding_cost_wip + shortage_cost) * (1 + inflation) in
  {| machine_cost := machine_cost_preview d;
     setup_cost := setup_cost_preview d;
     labor_cost := labor_cost_preview d;
     holding_cost_fg := holding_cost_fg;
     holding_cost_wip := holding_cost_wip;
     shortage_cost := shortage_cost;
     year_total_cost := total_cost;
     cost_per_unit := total_cost / py_max (units_sold s) 1 |}.

(** Everything the block under [if st.button("Simulate This Year")]
    computes, before it is rounded into the results table. *)
Record YearCalc := {
  c_yearly_demand : Q;
  c_flow : Flow;
  c_sales : Sales;
  c_costs : Costs
}.

(** ** One simulated year (lines 103-203) *)

Definition simulate_year (st : State) (d : Decision) (r : Draws) : State * YearCalc :=
  let md := monthly_demand st * (1 + demand_growth r) in
  let yearly_demand := md * 12 in
  let fl := flow_of st d in
  let production := final_output fl in
  let s := resolve production (fg_inventory st) yearly_demand in
  let c := costs d (inflation r) s (wip_body' fl) (wip_paint' fl) (wip_engine' fl) in
  let row := {|
    r_year := year st;
    r_demand := py_round yearly_demand;
    r_production := py_round production;
    r_units_sold := py_round (units_sold s);
    r_fg_inventory := py_round (ending_inventory s);
    r_wip_body := py_round (wip_body' fl);
    r_wip_paint := py_round (wip_paint' fl);
    r_wip_engine := py_round (wip_engine' fl);
    r_machine_cost := py_round (machine_cost c);
    r_setup_cost := py_round (setup_cost c);
    r_labor_cost := py_round (labor_cost c);
    r_holding_cost_fg := py_round (holding_cost_fg c);
    r_holding_cost_wip := py_round (holding_cost_wip c);
    r_shortage_cost := py_round (shortage_cost c);
    r_inflation_pct := py_round2 (inflation r * 100);
    r_total_cost := py_round (year_total_cost c);
    r_cost_per_unit := py_round2 (cost_per_unit c) |} in
  let st' := {|
    year := (year st + 1)%Z;
    monthly_demand := md;
    fg_inventory := ending_inventory s;
    wip_body := wip_body' fl;
    wip_paint := wip_paint' fl;
    wip_engine := wip_engine' fl;
    results := results st ++ [row];
    total_cost := total_cost st + year_total_cost c;
    total_units := total_units st + units_sold s |} in
  (st', {| c_yearly_demand := yearly_demand; c_flow := fl; c_sales := s; c_costs := c |}).

(** Outcome of a call: Python either returns or raises. *)
Inductive Outcome (A : Type) :=
| Returned (a : A)
| Raised (exn : string).
Arguments Returned {A} a.
Arguments Raised {A} exn.

(** Pressing "Simulate This Year": the whole block is guarded by
    [if current_year <= 5] (line 66). *)
Definition advance (st : State) (d : Decision) (r : Draws) : Outcome State :=
  if (year st <=? 5)%Z then Returned (fst (simulate_year st d r))
  else Returned st.

(** One run of the script, triggered by a user action. *)
Inductive Action :=
| Simulate (d : Decision) (r : Draws)
| Restart
| Idle.

Definition script_run (st : State) (a : Action) : State :=
  match a with
  | Simulate d r =>
      match advance st d r with Returned st' => st' | Raised _ => st end
  | Restart => defaults      (* st.session_state.clear(); st.rerun() *)
  | Idle => st
  end.

Inductive step : State -> State -> Prop :=
| step_simulate st d r :
    (year st <= 5)%Z -> decision_ok d -> draws_ok r ->
    step st (script_run st (Simulate d r))
| step_restart st : step st (script_run st Restart)
| step_idle st : step st (script_run st Idle).

Inductive reachable : State -> Prop :=
| reach_init : reachable defaults
| reach_step st st' : reachable st -> step st st' -> reachable st'.

(** ** Capacity-only mode *)

(** Modelled from the spec: the capacity-only variant of the stage flow
    engine (spec 4.3, "Capacity-only mode") is not part of [src/app.py].
    System throughput is the minimum of the four stage capacities and the
    bottleneck is the argmin, ties going to the first stage of the canonical
    order body, paint, engine, final. *)
Inductive Stage := Body | Paint | Engine | Final.

Definition canonical_order : list Stage := [Body; Paint; Engine; Final].

Definition stage_name (s : Stage) : string :=
  match s with
  | Body => "body" | Paint => "paint" | Engine => "engine" | Final => "final"
  end.

(** Scan in canonical order; a later stage replaces the current best only
    when its capacity is strictly smaller. *)
Fixpoint argmin_first (caps : Stage -> Q) (best : Stage) (l : list Stage) : Stage :=
  match l with
  | [] => best
  | s :: t =>
      if Qlt_le_dec (caps s) (caps best) then argmin_first caps s t
      else argmin_first caps best t
  end.

Definition bottleneck (caps : Stage -> Q) : Stage :=
  argmin_first caps Body [Paint; Engine; Final].

Definition throughput (caps : Stage -> Q) : Q :=
  Qmin (Qmin (Qmin (caps Body) (caps Paint)) (caps Engine)) (caps Final).

Definition capacity_only (caps : Stage -> Q) : Q * string :=
  (throughput caps, stage_name (bottleneck caps)).

(** Position of a stage in the canonical order. *)
Definition stage_rank (s : Stage) : nat :=
  match s with Body => 0 | Paint => 1 | Engine => 2 | Final => 3 end.

(** ** Lemmas on the Python built-ins *)

Lemma py_min_Qmin a b : py_min a b == Qmin a b.
Proof.
  unfold py_min; destruct (Q.min_spec a b) as [[H1 H2]|[H1 H2]];
    destruct Qlt_le_dec; lra.
Qed.

Lemma py_max_Qmax a b : py_max a b == Qmax a b.
Proof.
  unfold py_max; destruct (Q.max_spec a b) as [[H1 H2]|[H1 H2]];
    destruct Qlt_le_dec; lra.
Qed.

Lemma py_max_ge_r a b : b <= py_max a b.
Proof. unfold py_max; destruct Qlt_le_dec; lra. Qed.

Lemma py_min_le_l a b : py_min a b <= a.
Proof. unfold py_min; destruct Qlt_le_dec; lra. Qed.

Lemma py_min_le_r a b : py_min a b <= b.
Proof. unfold py_min; destruct Qlt_le_dec; lra. Qed.

Lemma py_min_cases a b : (b < a /\ py_min a b = b) \/ (a <= b /\ py_min a b = a).
Proof. unfold py_min; destruct Qlt_le_dec; auto. Qed.

Lemma py_max_cases a b : (a < b /\ py_max a b = b) \/ (b <= a /\ py_max a b = a).
Proof. unfold py_max; destruct Qlt_le_dec; auto. Qed.

Ltac py_cases :=
  repeat match goal with
  | |- context [py_min ?a ?b] =>
      destruct (py_min_cases a b) as [[? ->]|[? ->]]
  | |- context [py_max ?a ?b] =>
      destruct (py_max_cases a b) as [[? ->]|[? ->]]
  end.

(** ** Inventory & sales resolution *)

(** C1: the resolver computes available units, units sold, ending inventory
    and shortage by the four formulas of the spec (with the mathematical
    [Qmin]/[Qmax]), and on the two scenarios gives 8000/0/2000 and
    10300/10000/300/0. *)
Theorem resolve_formulas :
  (forall p i d,
     let s := resolve p i d in
     available_units s == p + i /\
     units_sold s == Qmin d (available_units s) /\
     ending_inventory s == Qmax (available_units s - d) 0 /\
     shortage s == Qmax (d - available_units s) 0) /\
  (let s := resolve 8000 0 10000 in
   units_sold s == 8000 /\ ending_inventory s == 0 /\ shortage s == 2000) /\
  (let s := resolve 9800 500 10000 in
   available_units s == 10300 /\ units_sold s == 10000 /\
   ending_inventory s == 300 /\ shortage s == 0).
Proof.
  split; [|split].
  - intros p i d s; subst s; simpl.
    repeat split; try reflexivity; auto using py_min_Qmin, py_max_Qmax.
  - vm_compute; repeat split; reflexivity.
  - vm_compute; repeat split; reflexivity.
Qed.

(** C2: conservation [ending_inventory + units_sold == production +
    opening_inventory]; and when available units differ from demand exactly
    one of ending inventory and shortage is positive, otherwise both are
    zero. *)
Theorem resolve_conservation p i d :
  let s := resolve p i d in
  ending_inventory s + units_sold s == p + i /\
  (~ (available_units s == d) ->
     (0 < ending_inventory s /\ shortage s == 0) \/
     (ending_inventory s == 0 /\ 0 < shortage s)) /\
  (available_units s == d -> ending_inventory s == 0 /\ shortage s == 0).
Proof.
  intros s; subst s; unfold resolve; simpl.
  py_cases; repeat split; intros; try lra.
  all: try (left; lra); try (right; lra).
  all: exfalso; apply H2; lra.
Qed.

(** ** Stage flow *)

(** The widgets' default decision with a single final-assembly machine. *)
Definition one_final_machine : Decision := {|
  machines_body := 4; machines_paint := 4; machines_engine := 4;
  machines_final := 1; overtime := 20; maintenance_eff := 1#2 |}.

(** C3: from the initial state, with four body, paint and engine machines
    and one final machine, the engine stage passes 154828.8 units to final
    assembly, which has capacity 51609.6; final assembly has no WIP buffer,
    so the remaining 103219.2 units are in no buffer and in no output: the
    units leaving body plus the carried WIP are not the units leaving final
    plus the new WIP. *)
Theorem stage_flow_final_loses_units :
  let fl := flow_of defaults one_final_machine in
  final_input fl == 1548288 # 10 /\
  final_output fl == 516096 # 10 /\
  final_input fl - final_output fl == 1032192 # 10 /\
  ~ (body_output fl + wip_paint defaults + wip_engine defaults ==
     final_output fl + wip_paint' fl + wip_engine' fl).
Proof. vm_compute; repeat split; try reflexivity; discriminate. Qed.

(** ** Non-negativity *)

Definition stocks_nonneg (st : State) : Prop :=
  0 <= fg_inventory st /\ 0 <= wip_body st /\ 0 <= wip_paint st /\
  0 <= wip_engine st.

Lemma simulate_year_stocks_nonneg st d r :
  stocks_nonneg (fst (simulate_year st d r)) /\
  0 <= ending_inventory (c_sales (snd (simulate_year st d r))) /\
  0 <= shortage (c_sales (snd (simulate_year st d r))).
Proof.
  unfold simulate_year, flow_of, stage_flow, resolve, stocks_nonneg; simpl.
  repeat split; apply py_max_ge_r.
Qed.

Lemma defaults_stocks_nonneg : stocks_nonneg defaults.
Proof. unfold stocks_nonneg; simpl; repeat split; discriminate. Qed.

Lemma step_stocks_nonneg st st' : stocks_nonneg st -> step st st' -> stocks_nonneg st'.
Proof.
  intros Hn Hs; inversion Hs; subst; simpl; auto using defaults_stocks_nonneg.
  unfold advance; destruct (year st <=? 5)%Z; auto.
  apply simulate_year_stocks_nonneg.
Qed.

(** C4: in every reachable state the finished goods inventory and the three
    WIP buffers are non-negative, and every year simulated from it has a
    non-negative ending inventory and shortage. *)
Theorem reachable_nonneg st :
  reachable st ->
  stocks_nonneg st /\
  (forall d r,
     let c := snd (simulate_year st d r) in
     stocks_nonneg (fst (simulate_year st d r)) /\
     0 <= ending_inventory (c_sales c) /\ 0 <= shortage (c_sales c)).
Proof.
  intros Hr; split.
  - induction Hr; eauto using defaults_stocks_nonneg, step_stocks_nonneg.
  - intros d r; apply simulate_year_stocks_nonneg.
Qed.

Lemma reachable_nonneg_witness :
  reachable defaults /\ stocks_nonneg defaults /\
  (forall d r,
     let c := snd (simulate_year defaults d r) in
     stocks_nonneg (fst (simulate_year defaults d r)) /\
     0 <= ending_inventory (c_sales c) /\ 0 <= shortage (c_sales c)).
Proof. split; [constructor | apply (reachable_nonneg defaults); constructor]. Defined.

(** ** The year guard *)

Definition after_horizon : State := {|
  year := 6; monthly_demand := BASE_MONTHLY_DEMAND; fg_inventory := 0;
  wip_body := 0; wip_paint := 0; wip_engine := 0; results := [];
  total_cost := 0; total_units := 0 |}.

Definition default_decision : Decision := {|
  machines_body := 4; machines_paint := 4; machines_engine := 4;
  machines_final := 4; overtime := 20; maintenance_eff := 1#2 |}.

Definition mid_draws : Draws := {| demand_growth := 5#100; inflation := 9#100 |}.

(** C5 (as stated, refuted): in year 6 [advance] raises nothing; it returns
    the state it was given. *)
Lemma advance_after_horizon_no_error :
  advance after_horizon default_decision mid_draws = Returned after_horizon /\
  ~ (exists e, advance after_horizon default_decision mid_draws = Raised e).
Proof.
  split; [reflexivity|].
  intros [e He]; discriminate He.
Qed.

(** C5 (amended): when [current_year > 5], [advance] is a no-op: it raises
    no error and returns the state unchanged. *)
Theorem advance_after_horizon_noop st d r :
  (5 < year st)%Z -> advance st d r = Returned st.
Proof.
  intros H; unfold advance.
  destruct (Z.leb_spec (year st) 5); [lia | reflexivity].
Qed.

Lemma advance_after_horizon_noop_witness :
  (5 < year after_horizon)%Z /\
  advance after_horizon default_decision mid_draws = Returned after_horizon.
Proof.
  split; [reflexivity | apply advance_after_horizon_noop; reflexivity].
Defined.

(** ** Capacity-only mode *)

Lemma Qmin_cases a b : (b < a /\ Qmin a b = b) \/ (a <= b /\ Qmin a b = a).
Proof.
  unfold Qmin, GenericMinMax.gmin.
  destruct (Qcompare_spec a b) as [H|H|H]; [right|right|left]; split;
    auto; try reflexivity; lra.
Qed.

Definition example_caps (s : Stage) : Q :=
  match s with Body => 480 | Paint => 320 | Engine => 576 | Final => 640 end.

(** C6: in capacity-only mode the throughput is the minimum of the stage
    capacities, the bottleneck is a stage attaining it, every stage before
    the bottleneck in the canonical order has a strictly larger capacity;
    with capacities 480/320/576/640 it reports [(320, "paint")]. *)
Theorem capacity_only_bottleneck :
  (forall caps : Stage -> Q,
     (forall s, throughput caps <= caps s) /\
     throughput caps == caps (bottleneck caps) /\
     (forall s, (stage_rank s < stage_rank (bottleneck caps))%nat ->
                throughput caps < caps s)) /\
  capacity_only example_caps = (320, "paint"%string).
Proof.
  split; [|reflexivity].
  intros caps; unfold throughput, bottleneck; simpl.
  repeat match goal with
  | |- context [Qmin (caps ?a) (caps ?b)] =>
      destruct (Qmin_cases (caps a) (caps b)) as [[? ->]|[? ->]]
  end;
  repeat (destruct Qlt_le_dec; simpl);
  repeat split; try (intros s; destruct s; simpl); intros; try lia; lra.
Qed.

(** ** Cost aggregation *)

(** C7: each cost line is a rate times a quantity (WIP at a lower rate than
    finished goods), the year's total is their sum times [1 + inflation] of
    that year's draw, and it does not depend on the years already
    simulated: two states with the same demand level and stocks give the
    same total whatever their year, results and accumulated cost. *)
Theorem year_cost_breakdown st d r :
  let fl := flow_of st d in
  let s := c_sales (snd (simulate_year st d r)) in
  let c := c_costs (snd (simulate_year st d r)) in
  machine_cost c == MACHINE_COST_PER_HOUR * inject_Z (total_machines d) * yearly_hours /\
  setup_cost c == SETUP_COST_PER_MACHINE * inject_Z (total_machines d) /\
  labor_cost c == LABOR_COST_PER_HOUR * inject_Z (overtime d) * 12 /\
  holding_cost_fg c == ending_inventory s * HOLDING_COST_PER_UNIT /\
  holding_cost_wip c ==
    (wip_body' fl + wip_paint' fl + wip_engine' fl) * WIP_HOLDING_COST_PER_UNIT /\
  shortage_cost c == shortage s * SHORTAGE_COST_PER_UNIT /\
  year_total_cost c ==
    (machine_cost c + setup_cost c + labor_cost c + holding_cost_fg c +
     holding_cost_wip c + shortage_cost c) * (1 + inflation r) /\
  WIP_HOLDING_COST_PER_UNIT < HOLDING_COST_PER_UNIT /\
  (forall st2,
     monthly_demand st2 = monthly_demand st -> fg_inventory st2 = fg_inventory st ->
     wip_body st2 = wip_body st -> wip_paint st2 = wip_paint st ->
     wip_engine st2 = wip_engine st ->
     year_total_cost (c_costs (snd (simulate_year st2 d r))) =
     year_total_cost c).
Proof.
  intros fl s c; subst fl s c.
  cbn [simulate_year costs c_costs c_sales fst snd machine_cost setup_cost
       labor_cost holding_cost_fg holding_cost_wip shortage_cost year_total_cost].
  unfold machine_cost_preview, setup_cost_preview, labor_cost_preview.
  do 7 (split; [apply Qeq_refl|]). split; [reflexivity|].
  intros st2 H1 H2 H3 H4 H5.
  cbn [simulate_year costs c_costs fst snd year_total_cost].
  unfold flow_of; rewrite H1, H2, H3, H4, H5; reflexivity.
Qed.

(** C8: the cost per unit is the year's total cost divided by
    [max(units_sold, 1)]; that denominator is at least 1, so it is never
    zero, also when nothing is sold, and the year still completes. *)
Theorem cost_per_unit_guard st d r :
  let s := c_sales (snd (simulate_year st d r)) in
  let c := c_costs (snd (simulate_year st d r)) in
  cost_per_unit c == year_total_cost c / Qmax (units_sold s) 1 /\
  1 <= py_max (units_sold s) 1 /\
  ~ (py_max (units_sold s) 1 == 0) /\
  (forall e, advance st d r <> Raised e).
Proof.
  intros s c; subst s c.
  cbn [simulate_year costs c_costs c_sales fst snd cost_per_unit
       year_total_cost units_sold resolve].
  split; [rewrite py_max_Qmax; reflexivity|].
  split; [apply py_max_ge_r|].
  split; [pose proof (py_max_ge_r (py_min (monthly_demand st * (1 + demand_growth r) * 12)
           (final_output (flow_of st d) + fg_inventory st)) 1); lra|].
  intros e; unfold advance; destruct (year st <=? 5)%Z; discriminate.
Qed.

(** ** A state after one simulated year *)

Lemma default_decision_ok : decision_ok default_decision.
Proof. unfold decision_ok; cbn; repeat split; try lia; lra. Qed.

Lemma mid_draws_ok : draws_ok mid_draws.
Proof. unfold draws_ok; cbn; lra. Qed.

(** The state after simulating year 1 with the widgets' default decision
    and a 5% demand growth, 9% inflation draw. *)
Definition year2_state : State :=
  script_run defaults (Simulate default_decision mid_draws).

Lemma reachable_year2 : reachable year2_state.
Proof.
  apply (reach_step defaults); [constructor|].
  apply step_simulate; [cbn; lia | exact default_decision_ok | exact mid_draws_ok].
Qed.

Lemma year2_state_year : year year2_state = 2%Z.
Proof. vm_compute; reflexivity. Qed.

(** ** Year counter and results log *)

Lemma simulate_year_counters st d r :
  year (fst (simulate_year st d r)) = (year st + 1)%Z /\
  exists row, results (fst (simulate_year st d r)) = results st ++ [row].
Proof. split; [reflexivity | eexists; reflexivity]. Qed.

Lemma step_log_length st st' :
  Z.of_nat (List.length (results st)) = (year st - 1)%Z -> step st st' ->
  Z.of_nat (List.length (results st')) = (year st' - 1)%Z.
Proof.
  intros Hl Hs; inversion Hs as [? d r Hy Hd Hr| |]; subst; simpl; auto.
  unfold advance; destruct (Z.leb_spec (year st) 5); [|lia].
  destruct (simulate_year_counters st d r) as [Hy' [row Hrow]].
  rewrite Hy', Hrow, length_app; simpl; lia.
Qed.

(** C9: in every reachable state the results log has [current_year - 1]
    records, and a successful [advance] (one with [current_year <= 5])
    increments the year by exactly one and appends exactly one record. *)
Theorem year_log_length st :
  reachable st ->
  Z.of_nat (List.length (results st)) = (year st - 1)%Z /\
  (forall d r, (year st <= 5)%Z ->
     exists st', advance st d r = Returned st' /\
       year st' = (year st + 1)%Z /\
       exists row, results st' = results st ++ [row]).
Proof.
  intros Hr; split.
  - induction Hr; [reflexivity | eauto using step_log_length].
  - intros d r Hy; exists (fst (simulate_year st d r)); split.
    + unfold advance; destruct (Z.leb_spec (year st) 5); [reflexivity | lia].
    + apply simulate_year_counters.
Qed.

Lemma year_log_length_witness :
  reachable year2_state /\
  Z.of_nat (List.length (results year2_state)) = (year year2_state - 1)%Z /\
  exists st', advance year2_state default_decision mid_draws = Returned st' /\
    year st' = 3%Z /\
    exists row, results st' = results year2_state ++ [row].
Proof.
  destruct (year_log_length year2_state reachable_year2) as [H1 H2].
  split; [exact reachable_year2 | split; [exact H1|]].
  destruct (H2 default_decision mid_draws) as [st' [Ha [Hy Hrow]]].
  { rewrite year2_state_year; lia. }
  exists st'; split; [exact Ha|]; split; [|exact Hrow].
  rewrite Hy, year2_state_year; reflexivity.
Defined.

(** ** The body stage's WIP *)

Lemma body_stage_frame cb cp ce cf wb wp we :
  0 <= wb ->
  body_output (stage_flow cb cp ce cf wb wp we) = cb /\
  wip_body' (stage_flow cb cp ce cf wb wp we) == wb.
Proof.
  intros Hw; cbn [stage_flow body_output wip_body'].
  destruct (py_min_cases cb (cb + wb)) as [[H ->]|[H ->]]; [lra|].
  split; [reflexivity|].
  destruct (py_max_cases (wb + cb - cb) 0) as [[H' ->]|[H' ->]]; lra.
Qed.

(** C10: in every reachable state the body WIP is 0, and any simulated
    year from it has body output equal to the body capacity and leaves the
    body WIP unchanged. *)
Theorem wip_body_frame st :
  reachable st ->
  wip_body st == 0 /\
  (forall d r,
     body_output (flow_of st d) = cap_body d /\
     wip_body (fst (simulate_year st d r)) == wip_body st).
Proof.
  intros Hr.
  assert (H0 : wip_body st == 0).
  { induction Hr as [|st st' _ IH Hs]; [reflexivity|].
    inversion Hs as [? d r| |]; subst; cbn [script_run]; auto; [|reflexivity].
    unfold advance; destruct (year st <=? 5)%Z; cbn [simulate_year fst wip_body]; auto.
    destruct (body_stage_frame (cap_body d) (cap_paint d) (cap_engine d)
                (cap_final d) (wip_body st) (wip_paint st) (wip_engine st))
      as [_ Hw]; [lra|].
    unfold flow_of; lra. }
  split; [exact H0|].
  intros d r; apply body_stage_frame; lra.
Qed.

Lemma wip_body_frame_witness :
  reachable defaults /\ wip_body defaults == 0 /\
  body_output (flow_of defaults default_decision) = cap_body default_decision.
Proof.
  split; [constructor|].
  destruct (wip_body_frame defaults reach_init) as [H0 H1].
  split; [exact H0 | apply (H1 default_decision mid_draws)].
Defined.

(** * Further properties of the simulator *)

(** ** Year counter and the year column of the results table *)

Lemma step_year_bounds st st' :
  (1 <= year st <= 6)%Z -> step st st' -> (1 <= year st' <= 6)%Z.
Proof.
  intros Hy Hs; inversion Hs as [? d r Hle| |]; subst; cbn [script_run]; auto.
  - unfold advance; destruct (Z.leb_spec (year st) 5); [|lia].
    cbn [simulate_year fst year]; lia.
  - cbn [defaults year]; lia.
Qed.

Lemma reachable_year_range st : reachable st -> (1 <= year st <= 6)%Z.
Proof.
  intros Hr; induction Hr; [cbn; lia | eauto using step_year_bounds].
Qed.

(** The year shown to the planner stays between 1 and 6: simulating is only
    offered up to year 5, and a restart goes back to year 1. *)
Theorem reachable_year_bounds st :
  reachable st -> (1 <= year st <= 6)%Z.
Proof.
  intros Hr; induction Hr; [cbn; lia | eauto using step_year_bounds].
Qed.

Lemma reachable_year_bounds_witness :
  reachable year2_state /\ (1 <= year year2_state <= 6)%Z /\
  reachable (script_run year2_state Restart) /\
  (1 <= year (script_run year2_state Restart) <= 6)%Z.
Proof.
  assert (Hr : reachable (script_run year2_state Restart))
    by (apply (reach_step year2_state); [exact reachable_year2 | apply step_restart]).
  split; [exact reachable_year2|].
  split; [apply reachable_year_bounds; exact reachable_year2|].
  split; [exact Hr | apply reachable_year_bounds; exact Hr].
Defined.

Lemma step_result_years st st' :
  (1 <= year st)%Z ->
  map r_year (results st) = map Z.of_nat (seq 1 (Z.to_nat (year st - 1))) ->
  step st st' ->
  map r_year (results st') = map Z.of_nat (seq 1 (Z.to_nat (year st' - 1))).
Proof.
  intros Hy Hm Hs; inversion Hs as [? d r Hle| |]; subst; cbn [script_run]; auto.
  - unfold advance; destruct (Z.leb_spec (year st) 5); [|lia].
    cbn [simulate_year fst year results].
    rewrite map_app, Hm.
    replace (Z.to_nat (year st + 1 - 1)) with (S (Z.to_nat (year st - 1))) by lia.
    rewrite seq_S, map_app; cbn [map r_year].
    f_equal; f_equal; lia.
  all: reflexivity.
Qed.

(** The "Year" column of the results table lists 1, 2, ..., current_year - 1
    in order: each simulated year appends the row of the year it simulated. *)
Theorem reachable_result_years st :
  reachable st ->
  map r_year (results st) = map Z.of_nat (seq 1 (Z.to_nat (year st - 1))).
Proof.
  intros Hr; induction Hr as [|st st' Hr IH Hs]; [reflexivity|].
  apply (step_result_years st); auto.
  apply reachable_year_range; auto.
Qed.

Lemma reachable_result_years_witness :
  reachable year2_state /\ map r_year (results year2_state) = [1%Z].
Proof.
  split; [exact reachable_year2|].
  rewrite (reachable_result_years year2_state reachable_year2), year2_state_year.
  reflexivity.
Defined.

(** ** Demand level *)

Lemma step_demand_pos st st' :
  0 < monthly_demand st -> step st st' -> 0 < monthly_demand st'.
Proof.
  intros Hm Hs; inversion Hs as [? d r Hle Hd [Hg _]| |]; subst; cbn [script_run]; auto.
  - unfold advance; destruct (year st <=? 5)%Z; auto.
    cbn [simulate_year fst monthly_demand].
    apply Qmult_lt_0_compat; [auto | lra].
  - unfold defaults, BASE_MONTHLY_DEMAND; cbn; lra.
Qed.

(** The monthly demand level is always positive: it starts at 10000 and each
    year multiplies it by [1 + growth] with growth drawn from [-0.10, 0.25]. *)
Theorem reachable_demand_pos st :
  reachable st -> 0 < monthly_demand st.
Proof.
  intros Hr; induction Hr; [unfold defaults, BASE_MONTHLY_DEMAND; cbn; lra |
    eauto using step_demand_pos].
Qed.

Lemma reachable_demand_pos_witness :
  reachable year2_state /\ 0 < monthly_demand year2_state /\
  monthly_demand year2_state == 10500.
Proof.
  split; [exact reachable_year2|].
  split; [apply reachable_demand_pos; exact reachable_year2|].
  vm_compute; reflexivity.
Defined.

(** One simulated year moves the monthly demand level by a factor between
    0.9 and 1.25, and the year's demand is twelve times the new level. *)
Theorem simulate_year_demand_band st d r :
  0 < monthly_demand st -> draws_ok r ->
  let st' := fst (simulate_year st d r) in
  (9#10) * monthly_demand st <= monthly_demand st' <= (5#4) * monthly_demand st /\
  c_yearly_demand (snd (simulate_year st d r)) == monthly_demand st' * 12.
Proof.
  intros Hm [[Hg1 Hg2] _] st'; subst st'.
  cbn [simulate_year fst snd monthly_demand c_yearly_demand].
  split; [split|reflexivity].
  - setoid_replace ((9#10) * monthly_demand st) with (monthly_demand st * (9#10)) by ring.
    apply Qmult_le_l; [auto | lra].
  - setoid_replace ((5#4) * monthly_demand st) with (monthly_demand st * (5#4)) by ring.
    apply Qmult_le_l; [auto | lra].
Qed.

Lemma simulate_year_demand_band_witness :
  0 < monthly_demand defaults /\ draws_ok mid_draws /\
  (9#10) * monthly_demand defaults
    <= monthly_demand (fst (simulate_year defaults default_decision mid_draws)).
Proof.
  assert (Hm : 0 < monthly_demand defaults)
    by (unfold defaults, BASE_MONTHLY_DEMAND; cbn; lra).
  assert (Hr : draws_ok mid_draws) by (unfold draws_ok; cbn; lra).
  split; [exact Hm | split; [exact Hr|]].
  apply (simulate_year_demand_band defaults default_decision mid_draws Hm Hr).
Defined.

(** ** Capacity model *)

Lemma inject_Z_nonneg z : (0 <= z)%Z -> 0 <= inject_Z z.
Proof. intros H; unfold Qle; cbn; lia. Qed.

(** For a maintenance efficiency in [0, 1] the per-machine yearly capacity
    lies between 12364.8 (no maintenance: 8% breakdowns) and 13440 (full
    maintenance: no breakdowns), linearly in the efficiency. *)
Theorem base_capacity_range d :
  0 <= maintenance_eff d <= 1 ->
  base_capacity d == (123648 # 10) + (10752 # 10) * maintenance_eff d /\
  (123648 # 10) <= base_capacity d <= 13440.
Proof.
  intros He; unfold base_capacity, yearly_hours, AVAILABLE_HOURS_MONTH,
    UNITS_PER_MACHINE_PER_HOUR, BREAKDOWN_PROB.
  split; [ring | lra].
Qed.

Lemma base_capacity_range_witness :
  0 <= maintenance_eff default_decision <= 1 /\
  base_capacity default_decision == (123648 # 10) + (10752 # 10) * (1#2).
Proof.
  assert (H : 0 <= maintenance_eff default_decision <= 1) by (cbn; lra).
  split; [exact H | apply (base_capacity_range default_decision H)].
Defined.

Definition with_maintenance (d : Decision) (e : Q) : Decision := {|
  machines_body := machines_body d; machines_paint := machines_paint d;
  machines_engine := machines_engine d; machines_final := machines_final d;
  overtime := overtime d; maintenance_eff := e |}.

Lemma base_capacity_mono d e1 e2 :
  e1 <= e2 -> base_capacity (with_maintenance d e1) <= base_capacity (with_maintenance d e2).
Proof.
  intros H; unfold base_capacity, yearly_hours, AVAILABLE_HOURS_MONTH,
    UNITS_PER_MACHINE_PER_HOUR, BREAKDOWN_PROB; cbn [maintenance_eff with_maintenance].
  lra.
Qed.

Lemma scaled_mono (m : Z) (b1 b2 f : Q) :
  (0 <= m)%Z -> 0 <= f -> b1 <= b2 -> inject_Z m * b1 * f <= inject_Z m * b2 * f.
Proof.
  intros Hm Hf Hb; apply Qmult_le_compat_r; [|exact Hf].
  rewrite (Qmult_comm (inject_Z m) b1), (Qmult_comm (inject_Z m) b2).
  apply Qmult_le_compat_r; [exact Hb | apply inject_Z_nonneg; exact Hm].
Qed.

(** Raising the maintenance efficiency, all else equal, never lowers the
    capacity of any of the four stages. *)
Theorem maintenance_raises_capacity d e1 e2 :
  decision_ok d -> e1 <= e2 ->
  let d1 := with_maintenance d e1 in
  let d2 := with_maintenance d e2 in
  cap_body d1 <= cap_body d2 /\ cap_paint d1 <= cap_paint d2 /\
  cap_engine d1 <= cap_engine d2 /\ cap_final d1 <= cap_final d2.
Proof.
  intros [Hb [Hp [He [Hf _]]]] H12 d1 d2; subst d1 d2.
  pose proof (base_capacity_mono d e1 e2 H12) as Hm.
  unfold cap_body, cap_paint, cap_engine, cap_final; cbn [with_maintenance
    machines_body machines_paint machines_engine machines_final].
  repeat split; apply scaled_mono; try lia; auto;
    unfold BODY_FACTOR, PAINT_FACTOR, ENGINE_FACTOR, FINAL_FACTOR; lra.
Qed.

Lemma maintenance_raises_capacity_witness :
  decision_ok default_decision /\ 0 <= 1 /\
  cap_final (with_maintenance default_decision 0)
    <= cap_final (with_maintenance default_decision 1).
Proof.
  assert (Hd : decision_ok default_decision)
    by (unfold decision_ok; cbn; repeat split; try lia; lra).
  assert (H01 : 0 <= 1) by lra.
  split; [exact Hd | split; [exact H01|]].
  apply (maintenance_raises_capacity default_decision 0 1 Hd H01).
Defined.

Lemma caps_nonneg d :
  decision_ok d ->
  0 <= cap_body d /\ 0 <= cap_paint d /\ 0 <= cap_engine d /\ 0 <= cap_final d.
Proof.
  intros [Hb [Hp [He [Hf [_ Hm]]]]].
  assert (H0 : 0 <= base_capacity d).
  { unfold base_capacity, yearly_hours, AVAILABLE_HOURS_MONTH,
      UNITS_PER_MACHINE_PER_HOUR, BREAKDOWN_PROB; clear -Hm; lra. }
  assert (Hs : forall (m : Z) f, (0 <= m)%Z -> 0 <= f ->
                 0 <= inject_Z m * base_capacity d * f).
  { intros m f Hm0 Hf0; apply Qmult_le_0_compat; [|exact Hf0].
    apply Qmult_le_0_compat; [apply inject_Z_nonneg; exact Hm0 | exact H0]. }
  unfold cap_body, cap_paint, cap_engine, cap_final.
  repeat split; apply Hs; try lia;
    unfold BODY_FACTOR, PAINT_FACTOR, ENGINE_FACTOR, FINAL_FACTOR; lra.
Qed.

(** ** Stage flow *)

(** Paint, engine and final assembly never output more than their capacity
    or their input, and the paint and engine stages keep exactly their
    unconsumed input as the new WIP. *)
Theorem stage_flow_bounds cb cp ce cf wb wp we :
  let fl := stage_flow cb cp ce cf wb wp we in
  paint_output fl <= cp /\ paint_output fl <= paint_input fl /\
  engine_output fl <= ce /\ engine_output fl <= engine_input fl /\
  final_output fl <= cf /\ final_output fl <= final_input fl /\
  paint_input fl == paint_output fl + wip_paint' fl /\
  engine_input fl == engine_output fl + wip_engine' fl.
Proof.
  intros fl; subst fl; cbn [stage_flow paint_output paint_input engine_output
    engine_input final_output final_input wip_paint' wip_engine'].
  repeat split; try apply py_min_le_l; try apply py_min_le_r;
    py_cases; lra.
Qed.

(** Case split on every [py_min]/[py_max], innermost first, rewriting the
    hypotheses as well as the goal. *)
Ltac py_cases_all :=
  repeat match goal with
  | |- context [py_min ?a ?b] =>
      lazymatch constr:((a, b)) with
      | context [py_min _ _] => fail
      | context [py_max _ _] => fail
      | _ => destruct (py_min_cases a b) as [[? E]|[? E]]; rewrite E in *; clear E
      end
  | |- context [py_max ?a ?b] =>
      lazymatch constr:((a, b)) with
      | context [py_min _ _] => fail
      | context [py_max _ _] => fail
      | _ => destruct (py_max_cases a b) as [[? E]|[? E]]; rewrite E in *; clear E
      end
  end.

Ltac qmin_cases :=
  repeat match goal with
  | |- context [Qmin ?a ?b] =>
      lazymatch a with
      | context [Qmin _ _] => fail
      | _ => destruct (Qmin_cases a b) as [[? ->]|[? ->]]
      end
  end.

(** With no WIP carried in (as in the first year), the buffered flow
    produces exactly the smallest of the four stage capacities. *)
Theorem zero_wip_production cb cp ce cf :
  final_output (stage_flow cb cp ce cf 0 0 0) == Qmin (Qmin (Qmin cb cp) ce) cf.
Proof.
  cbn [stage_flow final_output].
  py_cases_all; qmin_cases; lra.
Qed.

Lemma step_to_year_one st st' :
  (1 <= year st)%Z -> step st st' -> year st' = 1%Z -> st' = defaults \/ st' = st.
Proof.
  intros Hy Hs H1; inversion Hs as [? d r Hle| |]; subst; cbn [script_run] in *; auto.
  unfold advance in *; destruct (Z.leb_spec (year st) 5); [|lia].
  cbn [simulate_year fst year] in H1; lia.
Qed.

(** The only reachable state in year 1 is the initial one: no simulated
    year leads back to year 1, only a restart does. *)
Theorem reachable_year_one st :
  reachable st -> year st = 1%Z -> st = defaults.
Proof.
  intros Hr; induction Hr as [|st st' Hr IH Hs]; intros H1; [reflexivity|].
  destruct (step_to_year_one st st') as [E|E]; auto.
  - apply reachable_year_range; exact Hr.
  - subst st'; auto.
Qed.

Lemma reachable_year_one_witness :
  reachable defaults /\ year defaults = 1%Z /\ defaults = defaults.
Proof.
  split; [constructor | split; [reflexivity|]].
  apply reachable_year_one; [constructor | reflexivity].
Defined.

Lemma flow_nonneg cb cp ce cf wb wp we :
  0 <= cb -> 0 <= cp -> 0 <= ce -> 0 <= cf -> 0 <= wb -> 0 <= wp -> 0 <= we ->
  0 <= final_output (stage_flow cb cp ce cf wb wp we).
Proof.
  intros; cbn [stage_flow final_output]; py_cases; lra.
Qed.

Lemma reachable_stocks st : reachable st -> stocks_nonneg st.
Proof.
  intros Hr; induction Hr; eauto using defaults_stocks_nonneg, step_stocks_nonneg.
Qed.

(** In every reachable state and for every admissible decision the year's
    production is non-negative, at most the final-assembly capacity and at
    most the engine capacity. *)
Theorem production_bounds st d :
  reachable st -> decision_ok d ->
  let p := final_output (flow_of st d) in
  0 <= p /\ p <= cap_final d /\ p <= cap_engine d.
Proof.
  intros Hr Hd p; subst p.
  destruct (reachable_stocks st Hr) as [_ [Hb [Hp He]]].
  destruct (caps_nonneg d Hd) as [Cb [Cp [Ce Cf]]].
  split; [unfold flow_of; apply flow_nonneg; auto|].
  unfold flow_of; cbn [stage_flow final_output].
  split; [apply py_min_le_l|].
  eapply Qle_trans; [apply py_min_le_r | apply py_min_le_l].
Qed.

Lemma production_bounds_witness :
  reachable defaults /\ decision_ok default_decision /\
  final_output (flow_of defaults default_decision) <= cap_final default_decision.
Proof.
  assert (Hd : decision_ok default_decision)
    by (unfold decision_ok; cbn; repeat split; try lia; lra).
  split; [constructor | split; [exact Hd|]].
  apply (production_bounds defaults default_decision reach_init Hd).
Defined.

(** ** Running totals (lines 201-202) *)

Lemma resolve_sold_nonneg p i dem :
  0 <= p + i -> 0 <= dem -> 0 <= units_sold (resolve p i dem).
Proof.
  intros H1 H2; cbn [resolve units_sold].
  destruct (py_min_cases dem (p + i)) as [[? ->]|[? ->]]; assumption.
Qed.

Lemma resolve_stocks_nonneg p i dem :
  0 <= ending_inventory (resolve p i dem) /\ 0 <= shortage (resolve p i dem).
Proof. cbn [resolve ending_inventory shortage]; split; apply py_max_ge_r. Qed.

Lemma preview_costs_nonneg d :
  decision_ok d ->
  0 <= machine_cost_preview d /\ 0 <= setup_cost_preview d /\ 0 <= labor_cost_preview d.
Proof.
  intros [Mb [Mp [Me [Mf [Ho _]]]]].
  assert (Ht : 0 <= inject_Z (total_machines d))
    by (apply inject_Z_nonneg; unfold total_machines; lia).
  assert (Hv : 0 <= inject_Z (overtime d)) by (apply inject_Z_nonneg; lia).
  unfold machine_cost_preview, setup_cost_preview, labor_cost_preview.
  split; [|split].
  - apply Qmult_le_0_compat; [apply Qmult_le_0_compat; [discriminate | exact Ht]|].
    discriminate.
  - apply Qmult_le_0_compat; [discriminate | exact Ht].
  - apply Qmult_le_0_compat; [apply Qmult_le_0_compat; [discriminate | exact Hv]|].
    discriminate.
Qed.

Lemma costs_total_nonneg d infl s wb wp we :
  decision_ok d -> 0 <= 1 + infl ->
  0 <= ending_inventory s -> 0 <= shortage s -> 0 <= wb -> 0 <= wp -> 0 <= we ->
  0 <= year_total_cost (costs d infl s wb wp we).
Proof.
  intros Hd Hi He Hs Hb Hp Hw.
  destruct (preview_costs_nonneg d Hd) as [C1 [C2 C3]].
  cbn [costs year_total_cost].
  apply Qmult_le_0_compat; [|exact Hi].
  assert (0 <= ending_inventory s * HOLDING_COST_PER_UNIT)
    by (apply Qmult_le_0_compat; [exact He | discriminate]).
  assert (0 <= (wb + wp + we) * WIP_HOLDING_COST_PER_UNIT)
    by (apply Qmult_le_0_compat; [lra | discriminate]).
  assert (0 <= shortage s * SHORTAGE_COST_PER_UNIT)
    by (apply Qmult_le_0_compat; [exact Hs | discriminate]).
  lra.
Qed.

Lemma flow_wips_nonneg cb cp ce cf wb wp we :
  let fl := stage_flow cb cp ce cf wb wp we in
  0 <= wip_body' fl /\ 0 <= wip_paint' fl /\ 0 <= wip_engine' fl.
Proof. cbn [stage_flow wip_body' wip_paint' wip_engine']; repeat split; apply py_max_ge_r. Qed.

Lemma simulate_year_gains st d r :
  decision_ok d -> draws_ok r -> stocks_nonneg st -> 0 < monthly_demand st ->
  0 <= units_sold (c_sales (snd (simulate_year st d r))) /\
  0 <= year_total_cost (c_costs (snd (simulate_year st d r))).
Proof.
  intros Hd [[Hg _] [Hi _]] [Hf [Hb [Hp He]]] Hm.
  pose proof (caps_nonneg d Hd) as [Cb [Cp [Ce Cf]]].
  pose proof (flow_nonneg _ _ _ _ _ _ _ Cb Cp Ce Cf Hb Hp He) as Hprod.
  fold (flow_of st d) in Hprod.
  destruct (flow_wips_nonneg (cap_body d) (cap_paint d) (cap_engine d) (cap_final d)
              (wip_body st) (wip_paint st) (wip_engine st)) as [Wb [Wp We]].
  fold (flow_of st d) in Wb, Wp, We.
  cbn [simulate_year c_sales c_costs snd].
  split.
  - apply resolve_sold_nonneg; [clear -Hprod Hf; lra|].
    clear -Hm Hg; apply Qmult_le_0_compat; [|discriminate].
    apply Qmult_le_0_compat; lra.
  - destruct (resolve_stocks_nonneg (final_output (flow_of st d)) (fg_inventory st)
                (monthly_demand st * (1 + demand_growth r) * 12)) as [S1 S2].
    apply costs_total_nonneg; [exact Hd | clear -Hi; lra | exact S1 | exact S2 |
                               exact Wb | exact Wp | exact We].
Qed.

Definition totals_inv (st : State) : Prop :=
  stocks_nonneg st /\ 0 < monthly_demand st /\ 0 <= total_units st /\ 0 <= total_cost st.

Lemma step_totals_inv st st' : totals_inv st -> step st st' -> totals_inv st'.
Proof.
  intros [Hs [Hm [Hu Hc]]] Hst.
  pose proof (step_stocks_nonneg st st' Hs Hst) as Hs'.
  pose proof (step_demand_pos st st' Hm Hst) as Hm'.
  split; [exact Hs'|]. split; [exact Hm'|].
  inversion Hst as [? d r Hle Hd Hr| |]; subst; cbn [script_run].
  - unfold advance; destruct (year st <=? 5)%Z; [|auto].
    destruct (simulate_year_gains st d r Hd Hr Hs Hm) as [G1 G2].
    cbn [simulate_year c_sales c_costs snd] in G1, G2.
    cbn [simulate_year fst total_units total_cost].
    split; lra.
  - cbn [defaults total_units total_cost]; split; lra.
  - auto.
Qed.

Lemma reachable_totals_inv st : reachable st -> totals_inv st.
Proof.
  intros Hr; induction Hr; [|eauto using step_totals_inv].
  unfold totals_inv, stocks_nonneg, defaults, BASE_MONTHLY_DEMAND; cbn; lra.
Qed.

(** The running totals of cost and units sold are non-negative in every
    reachable state, and simulating a year with admissible inputs never
    decreases either of them. *)
Theorem running_totals_grow st d r :
  reachable st -> decision_ok d -> draws_ok r ->
  0 <= total_units st /\ 0 <= total_cost st /\
  total_units st <= total_units (fst (simulate_year st d r)) /\
  total_cost st <= total_cost (fst (simulate_year st d r)).
Proof.
  intros Hr Hd Hdr.
  destruct (reachable_totals_inv st Hr) as [Hs [Hm [Hu Hc]]].
  destruct (simulate_year_gains st d r Hd Hdr Hs Hm) as [G1 G2].
  cbn [simulate_year c_sales c_costs snd] in G1, G2.
  cbn [simulate_year fst total_units total_cost].
  repeat split; auto; lra.
Qed.

Lemma running_totals_grow_witness :
  reachable defaults /\ decision_ok default_decision /\ draws_ok mid_draws /\
  total_cost defaults <= total_cost (fst (simulate_year defaults default_decision mid_draws)).
Proof.
  assert (Hd : decision_ok default_decision)
    by (unfold decision_ok; cbn; repeat split; try lia; lra).
  assert (Hr : draws_ok mid_draws) by (unfold draws_ok; cbn; lra).
  split; [constructor | split; [exact Hd | split; [exact Hr|]]].
  apply (running_totals_grow defaults default_decision mid_draws reach_init Hd Hr).
Defined.

(** ** Results display (lines 212-224) *)

(** [int(x)]: truncation toward zero. *)
Definition py_int (x : Q) : Z :=
  if Qle_bool 0 x then Qfloor x else (- Qfloor (- x))%Z.

Record Display := {
  avg_cost : Q;          (* total_cost / max(total_units, 1) *)
  units_shown : Z;       (* int(total_units) *)
  fg_shown : Z           (* int(fg_inventory) *)
}.

(** The metrics block, shown only when [len(results) > 0]. *)
Definition results_display (st : State) : option Display :=
  if (0 <? List.length (results st))%nat then
    Some {| avg_cost := total_cost st / py_max (total_units st) 1;
            units_shown := py_int (total_units st);
            fg_shown := py_int (fg_inventory st) |}
  else None.

Lemma py_int_nonneg x : 0 <= x -> (0 <= py_int x)%Z /\ inject_Z (py_int x) <= x.
Proof.
  intros H; unfold py_int.
  destruct (Qle_bool 0 x) eqn:E; [|apply Qle_bool_iff in H; congruence].
  split; [|apply Qfloor_le].
  pose proof (Qlt_floor x) as Hl.
  assert (Hz : 0 < inject_Z (Qfloor x + 1)) by lra.
  change 0 with (inject_Z 0) in Hz.
  rewrite <- Zlt_Qlt in Hz; lia.
Qed.

Lemma reachable_log_length st :
  reachable st -> Z.of_nat (List.length (results st)) = (year st - 1)%Z.
Proof. intros Hr; induction Hr; [reflexivity | eauto using step_log_length]. Qed.

(** The results metrics are shown exactly from year 2 on, and then show a
    non-negative average cost per unit, and non-negative unit and
    inventory counts that do not exceed the exact values. *)
Theorem results_display_shown st :
  reachable st ->
  (results_display st = None <-> year st = 1%Z) /\
  (forall disp, results_display st = Some disp ->
     0 <= avg_cost disp /\
     (0 <= units_shown disp)%Z /\ inject_Z (units_shown disp) <= total_units st /\
     (0 <= fg_shown disp)%Z /\ inject_Z (fg_shown disp) <= fg_inventory st).
Proof.
  intros Hr.
  pose proof (reachable_log_length st Hr) as Hl.
  destruct (reachable_totals_inv st Hr) as [[Hf _] [_ [Hu Hc]]].
  unfold results_display.
  destruct (Nat.ltb_spec 0 (List.length (results st))) as [Hlt|Hge].
  - split; [split; [discriminate | lia]|].
    intros disp E; injection E as <-; cbn [avg_cost units_shown fg_shown].
    destruct (py_int_nonneg _ Hu), (py_int_nonneg _ Hf).
    repeat split; auto.
    pose proof (py_max_ge_r (total_units st) 1).
    apply Qmult_le_0_compat; [exact Hc|].
    apply Qinv_le_0_compat; lra.
  - split; [split; [lia | reflexivity]|].
    intros disp E; discriminate E.
Qed.

Lemma results_display_shown_witness :
  reachable year2_state /\
  exists disp, results_display year2_state = Some disp /\
    0 <= avg_cost disp /\
    (0 <= units_shown disp)%Z /\ inject_Z (units_shown disp) <= total_units year2_state /\
    (0 <= fg_shown disp)%Z /\ inject_Z (fg_shown disp) <= fg_inventory year2_state.
Proof.
  destruct (results_display_shown year2_state reachable_year2) as [_ H2].
  split; [exact reachable_year2|].
  destruct (results_display year2_state) as [disp|] eqn:E.
  - exists disp; split; [reflexivity | apply H2; reflexivity].
  - exfalso; vm_compute in E; discriminate E.
Defined.
